(** * The pipeline task of the Doris backend

    A shallow embedding of [be/src/pipeline/pipeline_task.h] and of
    [be/src/pipeline/exec/multi_cast_data_stream_source.h].

    Conventions.
    - A fixed-width unsigned field is a [Z] whose arithmetic is reduced
      modulo the width ([Machine.wrap32], [Machine.wrap64]).  The [int]
      fields (core ids, queue level) are only compared and copied by the
      code embedded here, so they are plain [Z].
    - A raw or shared pointer is an address ([nat]); the pointee lives in an
      explicit heap that the reading function receives.
    - Reading the monotonic clock is hidden behind the stop-watch interface.
    - Functions whose body is not part of these headers are either left out
      or, where a property needs them, introduced by a comment that starts
      with "Modelled from the spec:". *)

From Stdlib Require Import ZArith Bool List String Lia.
Import ListNotations.
Local Open Scope Z_scope.

(** ** Machine integers *)

Module Machine.

Definition UINT32_MODULUS : Z := 2 ^ 32.
Definition UINT64_MODULUS : Z := 2 ^ 64.
Definition UINT32_MAX : Z := UINT32_MODULUS - 1.
Definition UINT64_MAX : Z := UINT64_MODULUS - 1.
Definition INT64_MAX : Z := 2 ^ 63 - 1.

(** Conversion of a mathematical integer to [uint32_t] / [uint64_t]. *)
Definition wrap32 (z : Z) : Z := z mod UINT32_MODULUS.
Definition wrap64 (z : Z) : Z := z mod UINT64_MODULUS.

Definition is_uint32 (z : Z) : Prop := 0 <= z < UINT32_MODULUS.
Definition is_uint64 (z : Z) : Prop := 0 <= z < UINT64_MODULUS.

End Machine.

(** ** [common/status.h]

    Only [Status::OK()] is used by the embedded code; the header itself is
    not part of the excerpt.  A status is [OK] or an error with its code. *)

Inductive Status : Type :=
| OK
| Error (code : Z).

(** ** Enumerations *)

(** [enum SourceState] of [exec/operator.h], with the three tags the task
    header and the specification name. *)
Module SourceState.
Inductive t : Type := DEPEND_ON_SOURCE | MORE_DATA | FINISHED.
End SourceState.

(** [enum class PipelineTaskState : uint8_t]. *)
Module PipelineTaskState.

Inductive t : Type :=
| NOT_READY
| BLOCKED_FOR_DEPENDENCY
| BLOCKED_FOR_SOURCE
| BLOCKED_FOR_SINK
| RUNNABLE
| PENDING_FINISH
| FINISHED
| CANCELED
| BLOCKED_FOR_RF.

(** The enumerators' values. *)
Definition to_uint8 (s : t) : Z :=
  match s with
  | NOT_READY => 0
  | BLOCKED_FOR_DEPENDENCY => 1
  | BLOCKED_FOR_SOURCE => 2
  | BLOCKED_FOR_SINK => 3
  | RUNNABLE => 4
  | PENDING_FINISH => 5
  | FINISHED => 6
  | CANCELED => 7
  | BLOCKED_FOR_RF => 8
  end.

Definition eqb (a b : t) : bool := to_uint8 a =? to_uint8 b.

Definition all : list t :=
  [NOT_READY; BLOCKED_FOR_DEPENDENCY; BLOCKED_FOR_SOURCE; BLOCKED_FOR_SINK;
   RUNNABLE; PENDING_FINISH; FINISHED; CANCELED; BLOCKED_FOR_RF].

(** The header's comment: "BLOCKED include BLOCKED_FOR_DEPENDENCY,
    BLOCKED_FOR_SOURCE and BLOCKED_FOR_SINK". *)
Definition is_BLOCKED (s : t) : bool :=
  match s with
  | BLOCKED_FOR_DEPENDENCY | BLOCKED_FOR_SOURCE | BLOCKED_FOR_SINK => true
  | _ => false
  end.

(** Every blocked state of the enumeration, [BLOCKED_FOR_RF] included. *)
Definition is_blocked (s : t) : bool :=
  match s with
  | BLOCKED_FOR_RF => true
  | _ => is_BLOCKED s
  end.

Definition is_terminal (s : t) : bool :=
  match s with
  | FINISHED | CANCELED => true
  | _ => false
  end.

End PipelineTaskState.

(** [get_state_name]. *)
Definition get_state_name (idx : PipelineTaskState.t) : string :=
  match idx with
  | PipelineTaskState.NOT_READY => "NOT_READY"
  | PipelineTaskState.BLOCKED_FOR_DEPENDENCY => "BLOCKED_FOR_DEPENDENCY"
  | PipelineTaskState.BLOCKED_FOR_SOURCE => "BLOCKED_FOR_SOURCE"
  | PipelineTaskState.BLOCKED_FOR_SINK => "BLOCKED_FOR_SINK"
  | PipelineTaskState.RUNNABLE => "RUNNABLE"
  | PipelineTaskState.PENDING_FINISH => "PENDING_FINISH"
  | PipelineTaskState.FINISHED => "FINISHED"
  | PipelineTaskState.CANCELED => "CANCELED"
  | PipelineTaskState.BLOCKED_FOR_RF => "BLOCKED_FOR_RF"
  end%string.

(** ** Collaborators declared elsewhere *)

(** Addresses of objects the task only points to. *)
Definition PipelinePtr : Type := nat.
Definition RuntimeStatePtr : Type := option nat.
Definition FragmentContextPtr : Type := option nat.
Definition RuntimeProfilePtr : Type := option nat.

(** [pipeline.h] is not part of the excerpt.  A [Pipeline] is given the
    members the task header reads through [_pipeline]: [_can_steal],
    [_previous_schedule_id] and [_parents]. *)
Module Pipeline.

Record t : Type := {
  _can_steal : bool;
  _previous_schedule_id : Z;
  _parents : list PipelinePtr
}.

(** The pipelines of a fragment: [PipelinePtr] is a [shared_ptr], so every
    address a task holds designates a live pipeline. *)
Definition Heap : Type := PipelinePtr -> t.

Definition store (h : Heap) (p : PipelinePtr) (v : t) : Heap :=
  fun q => if Nat.eqb q p then v else h q.

(** Another holder of the pipeline records a new core hint. *)
Definition set_previous_schedule_id (id : Z) (v : t) : t :=
  {| _can_steal := _can_steal v;
     _previous_schedule_id := id;
     _parents := _parents v |}.

End Pipeline.

(** [util/stopwatch.hpp] is not part of the excerpt.  The task header calls
    [start()] and [stop()] on its [MonotonicStopWatch] members and default
    constructs them; [sw_running] observes whether the watch is counting. *)
Class StopWatch (W : Type) : Type := {
  sw_new : W;
  sw_start : W -> W;
  sw_stop : W -> W;
  sw_running : W -> bool;
  sw_running_new : sw_running sw_new = false;
  sw_running_start : forall w, sw_running (sw_start w) = true;
  sw_running_stop : forall w, sw_running (sw_stop w) = false
}.

(** [exec/operator.h] is not part of the excerpt.  An operator is a value of
    a type [Op] that answers the virtual calls the task header makes on
    [OperatorPtr]; one type covers every variant of operator, the instance
    dispatching on the value.  [op_try_close] is the operator's [try_close]
    of the specification: it returns a status and the operator it leaves. *)
Class OperatorBase (Op : Type) : Type := {
  op_can_read : Op -> bool;
  op_can_write : Op -> bool;
  op_is_pending_finish : Op -> bool;
  op_runtime_filters_are_ready_or_timeout : Op -> bool;
  op_try_close : Op -> Status * Op
}.

(** [Operators] is a vector of operator pointers on which the constructor
    calls [front()] and [back()]: a vector with a first element. *)
Module Operators.

Record t (Op : Type) : Type := { first : Op; rest : list Op }.
Arguments first {Op} _.
Arguments rest {Op} _.

Definition to_list {Op : Type} (v : t Op) : list Op := first v :: rest v.
Definition front {Op : Type} (v : t Op) : Op := first v.
Definition back {Op : Type} (v : t Op) : Op := last (rest v) (first v).

End Operators.


(** ** [class PipelineTask]

    The data members, in the order of the class.  [_source] and [_root] are
    copies of the pointers at the two ends of [_operators] and are never
    reassigned, so they are the accessors [_source] and [_root] below and an
    update of the chain is seen through them.  [_core_change_times] is the
    value of the profile counter that the member of that name points to.
    Members that no inline function of the header reads or writes ([_block],
    [_task_queue], [_task_profile] and the remaining profile counters) are
    left out. *)
Record PipelineTask (Op W : Type) : Type := {
  _index : Z;
  _pipeline : PipelinePtr;
  _dependency_finish : bool;
  _operators : Operators.t Op;
  _sink : Op;
  _prepared : bool;
  _opened : bool;
  _can_steal : bool;
  _state : RuntimeStatePtr;
  _previous_schedule_id : Z;
  _schedule_time : Z;
  _cur_state : PipelineTaskState.t;
  _data_state : SourceState.t;
  _fragment_context : FragmentContextPtr;
  _runtime : Z;
  _queue_level : Z;
  _core_id : Z;
  _parent_profile : RuntimeProfilePtr;
  _wait_source_watcher : W;
  _wait_sink_watcher : W;
  _wait_worker_watcher : W;
  _wait_schedule_watcher : W;
  _core_change_times : Z
}.

Arguments _index {Op W} _.
Arguments _pipeline {Op W} _.
Arguments _dependency_finish {Op W} _.
Arguments _operators {Op W} _.
Arguments _sink {Op W} _.
Arguments _prepared {Op W} _.
Arguments _opened {Op W} _.
Arguments _can_steal {Op W} _.
Arguments _state {Op W} _.
Arguments _previous_schedule_id {Op W} _.
Arguments _schedule_time {Op W} _.
Arguments _cur_state {Op W} _.
Arguments _data_state {Op W} _.
Arguments _fragment_context {Op W} _.
Arguments _runtime {Op W} _.
Arguments _queue_level {Op W} _.
Arguments _core_id {Op W} _.
Arguments _parent_profile {Op W} _.
Arguments _wait_source_watcher {Op W} _.
Arguments _wait_sink_watcher {Op W} _.
Arguments _wait_worker_watcher {Op W} _.
Arguments _wait_schedule_watcher {Op W} _.
Arguments _core_change_times {Op W} _.
Arguments Build_PipelineTask {Op W}.

Section Setters.

Context {Op W : Type}.
Implicit Type t : PipelineTask Op W.

Definition with_operators (v : Operators.t Op) t : PipelineTask Op W :=
    {| _index := _index t; _pipeline := _pipeline t;
       _dependency_finish := _dependency_finish t; _operators := v;
       _sink := _sink t; _prepared := _prepared t; _opened := _opened t;
       _can_steal := _can_steal t; _state := _state t;
       _previous_schedule_id := _previous_schedule_id t;
       _schedule_time := _schedule_time t; _cur_state := _cur_state t;
       _data_state := _data_state t;
       _fragment_context := _fragment_context t; _runtime := _runtime t;
       _queue_level := _queue_level t; _core_id := _core_id t;
       _parent_profile := _parent_profile t;
       _wait_source_watcher := _wait_source_watcher t;
       _wait_sink_watcher := _wait_sink_watcher t;
       _wait_worker_watcher := _wait_worker_watcher t;
       _wait_schedule_watcher := _wait_schedule_watcher t;
       _core_change_times := _core_change_times t |}.

Definition with_sink (v : Op) t : PipelineTask Op W :=
    {| _index := _index t; _pipeline := _pipeline t;
       _dependency_finish := _dependency_finish t;
       _operators := _operators t; _sink := v; _prepared := _prepared t;
       _opened := _opened t; _can_steal := _can_steal t; _state := _state t;
       _previous_schedule_id := _previous_schedule_id t;
       _schedule_time := _schedule_time t; _cur_state := _cur_state t;
       _data_state := _data_state t;
       _fragment_context := _fragment_context t; _runtime := _runtime t;
       _queue_level := _queue_level t; _core_id := _core_id t;
       _parent_profile := _parent_profile t;
       _wait_source_watcher := _wait_source_watcher t;
       _wait_sink_watcher := _wait_sink_watcher t;
       _wait_worker_watcher := _wait_worker_watcher t;
       _wait_schedule_watcher := _wait_schedule_watcher t;
       _core_change_times := _core_change_times t |}.

Definition with_previous_schedule_id (v : Z) t : PipelineTask Op W :=
    {| _index := _index t; _pipeline := _pipeline t;
       _dependency_finish := _dependency_finish t;
       _operators := _operators t; _sink := _sink t;
       _prepared := _prepared t; _opened := _opened t;
       _can_steal := _can_steal t; _state := _state t;
       _previous_schedule_id := v; _schedule_time := _schedule_time t;
       _cur_state := _cur_state t; _data_state := _data_state t;
       _fragment_context := _fragment_context t; _runtime := _runtime t;
       _queue_level := _queue_level t; _core_id := _core_id t;
       _parent_profile := _parent_profile t;
       _wait_source_watcher := _wait_source_watcher t;
       _wait_sink_watcher := _wait_sink_watcher t;
       _wait_worker_watcher := _wait_worker_watcher t;
       _wait_schedule_watcher := _wait_schedule_watcher t;
       _core_change_times := _core_change_times t |}.

Definition with_schedule_time (v : Z) t : PipelineTask Op W :=
    {| _index := _index t; _pipeline := _pipeline t;
       _dependency_finish := _dependency_finish t;
       _operators := _operators t; _sink := _sink t;
       _prepared := _prepared t; _opened := _opened t;
       _can_steal := _can_steal t; _state := _state t;
       _previous_schedule_id := _previous_schedule_id t; _schedule_time := v;
       _cur_state := _cur_state t; _data_state := _data_state t;
       _fragment_context := _fragment_context t; _runtime := _runtime t;
       _queue_level := _queue_level t; _core_id := _core_id t;
       _parent_profile := _parent_profile t;
       _wait_source_watcher := _wait_source_watcher t;
       _wait_sink_watcher := _wait_sink_watcher t;
       _wait_worker_watcher := _wait_worker_watcher t;
       _wait_schedule_watcher := _wait_schedule_watcher t;
       _core_change_times := _core_change_times t |}.

Definition with_cur_state (v : PipelineTaskState.t) t : PipelineTask Op W :=
    {| _index := _index t; _pipeline := _pipeline t;
       _dependency_finish := _dependency_finish t;
       _operators := _operators t; _sink := _sink t;
       _prepared := _prepared t; _opened := _opened t;
       _can_steal := _can_steal t; _state := _state t;
       _previous_schedule_id := _previous_schedule_id t;
       _schedule_time := _schedule_time t; _cur_state := v;
       _data_state := _data_state t;
       _fragment_context := _fragment_context t; _runtime := _runtime t;
       _queue_level := _queue_level t; _core_id := _core_id t;
       _parent_profile := _parent_profile t;
       _wait_source_watcher := _wait_source_watcher t;
       _wait_sink_watcher := _wait_sink_watcher t;
       _wait_worker_watcher := _wait_worker_watcher t;
       _wait_schedule_watcher := _wait_schedule_watcher t;
       _core_change_times := _core_change_times t |}.

Definition with_runtime (v : Z) t : PipelineTask Op W :=
    {| _index := _index t; _pipeline := _pipeline t;
       _dependency_finish := _dependency_finish t;
       _operators := _operators t; _sink := _sink t;
       _prepared := _prepared t; _opened := _opened t;
       _can_steal := _can_steal t; _state := _state t;
       _previous_schedule_id := _previous_schedule_id t;
       _schedule_time := _schedule_time t; _cur_state := _cur_state t;
       _data_state := _data_state t;
       _fragment_context := _fragment_context t; _runtime := v;
       _queue_level := _queue_level t; _core_id := _core_id t;
       _parent_profile := _parent_profile t;
       _wait_source_watcher := _wait_source_watcher t;
       _wait_sink_watcher := _wait_sink_watcher t;
       _wait_worker_watcher := _wait_worker_watcher t;
       _wait_schedule_watcher := _wait_schedule_watcher t;
       _core_change_times := _core_change_times t |}.

Definition with_queue_level (v : Z) t : PipelineTask Op W :=
    {| _index := _index t; _pipeline := _pipeline t;
       _dependency_finish := _dependency_finish t;
       _operators := _operators t; _sink := _sink t;
       _prepared := _prepared t; _opened := _opened t;
       _can_steal := _can_steal t; _state := _state t;
       _previous_schedule_id := _previous_schedule_id t;
       _schedule_time := _schedule_time t; _cur_state := _cur_state t;
       _data_state := _data_state t;
       _fragment_context := _fragment_context t; _runtime := _runtime t;
       _queue_level := v; _core_id := _core_id t;
       _parent_profile := _parent_profile t;
       _wait_source_watcher := _wait_source_watcher t;
       _wait_sink_watcher := _wait_sink_watcher t;
       _wait_worker_watcher := _wait_worker_watcher t;
       _wait_schedule_watcher := _wait_schedule_watcher t;
       _core_change_times := _core_change_times t |}.

Definition with_core_id (v : Z) t : PipelineTask Op W :=
    {| _index := _index t; _pipeline := _pipeline t;
       _dependency_finish := _dependency_finish t;
       _operators := _operators t; _sink := _sink t;
       _prepared := _prepared t; _opened := _opened t;
       _can_steal := _can_steal t; _state := _state t;
       _previous_schedule_id := _previous_schedule_id t;
       _schedule_time := _schedule_time t; _cur_state := _cur_state t;
       _data_state := _data_state t;
       _fragment_context := _fragment_context t; _runtime := _runtime t;
       _queue_level := _queue_level t; _core_id := v;
       _parent_profile := _parent_profile t;
       _wait_source_watcher := _wait_source_watcher t;
       _wait_sink_watcher := _wait_sink_watcher t;
       _wait_worker_watcher := _wait_worker_watcher t;
       _wait_schedule_watcher := _wait_schedule_watcher t;
       _core_change_times := _core_change_times t |}.

Definition with_wait_worker_watcher (v : W) t : PipelineTask Op W :=
    {| _index := _index t; _pipeline := _pipeline t;
       _dependency_finish := _dependency_finish t;
       _operators := _operators t; _sink := _sink t;
       _prepared := _prepared t; _opened := _opened t;
       _can_steal := _can_steal t; _state := _state t;
       _previous_schedule_id := _previous_schedule_id t;
       _schedule_time := _schedule_time t; _cur_state := _cur_state t;
       _data_state := _data_state t;
       _fragment_context := _fragment_context t; _runtime := _runtime t;
       _queue_level := _queue_level t; _core_id := _core_id t;
       _parent_profile := _parent_profile t;
       _wait_source_watcher := _wait_source_watcher t;
       _wait_sink_watcher := _wait_sink_watcher t; _wait_worker_watcher := v;
       _wait_schedule_watcher := _wait_schedule_watcher t;
       _core_change_times := _core_change_times t |}.

Definition with_wait_schedule_watcher (v : W) t : PipelineTask Op W :=
    {| _index := _index t; _pipeline := _pipeline t;
       _dependency_finish := _dependency_finish t;
       _operators := _operators t; _sink := _sink t;
       _prepared := _prepared t; _opened := _opened t;
       _can_steal := _can_steal t; _state := _state t;
       _previous_schedule_id := _previous_schedule_id t;
       _schedule_time := _schedule_time t; _cur_state := _cur_state t;
       _data_state := _data_state t;
       _fragment_context := _fragment_context t; _runtime := _runtime t;
       _queue_level := _queue_level t; _core_id := _core_id t;
       _parent_profile := _parent_profile t;
       _wait_source_watcher := _wait_source_watcher t;
       _wait_sink_watcher := _wait_sink_watcher t;
       _wait_worker_watcher := _wait_worker_watcher t;
       _wait_schedule_watcher := v;
       _core_change_times := _core_change_times t |}.

Definition with_core_change_times (v : Z) t : PipelineTask Op W :=
    {| _index := _index t; _pipeline := _pipeline t;
       _dependency_finish := _dependency_finish t;
       _operators := _operators t; _sink := _sink t;
       _prepared := _prepared t; _opened := _opened t;
       _can_steal := _can_steal t; _state := _state t;
       _previous_schedule_id := _previous_schedule_id t;
       _schedule_time := _schedule_time t; _cur_state := _cur_state t;
       _data_state := _data_state t;
       _fragment_context := _fragment_context t; _runtime := _runtime t;
       _queue_level := _queue_level t; _core_id := _core_id t;
       _parent_profile := _parent_profile t;
       _wait_source_watcher := _wait_source_watcher t;
       _wait_sink_watcher := _wait_sink_watcher t;
       _wait_worker_watcher := _wait_worker_watcher t;
       _wait_schedule_watcher := _wait_schedule_watcher t;
       _core_change_times := v |}.

End Setters.

(** [COUNTER_UPDATE(c, v)] of [util/runtime_profile.h], which is not part of
    the excerpt: the counter [c] grows by [v]. *)
Definition COUNTER_UPDATE (c v : Z) : Z := c + v.

(** [static constexpr auto THREAD_TIME_SLICE = 100'000'000L;] *)
Definition THREAD_TIME_SLICE : Z := 100000000.

Definition NANOS_PER_MILLI : Z := 1000000.

(** Modelled from the spec: the configuration table is not part of the
    excerpt; section 6 gives the tunable [pipeline_time_slice_ns] the default
    1e8. *)
Definition pipeline_time_slice_ns_default : Z := 10 ^ 8.

Section Task.

Context {Op W : Type} `{OperatorBase Op} `{StopWatch W}.
Implicit Type t : PipelineTask Op W.

(** The constructor.  [h] is the heap in which [pipeline] is dereferenced
    for [pipeline->_can_steal]; the members with a default initialiser take
    it, the stop watches are default constructed and the counter the profile
    registers reads 0. *)
Definition PipelineTask_new (h : Pipeline.Heap) (pipeline : PipelinePtr)
    (index : Z) (state : RuntimeStatePtr) (operators : Operators.t Op)
    (sink : Op) (fragment_context : FragmentContextPtr)
    (parent_profile : RuntimeProfilePtr) : PipelineTask Op W :=
  {| _index := index;
     _pipeline := pipeline;
     _dependency_finish := false;
     _operators := operators;
     _sink := sink;
     _prepared := false;
     _opened := false;
     _can_steal := Pipeline._can_steal (h pipeline);
     _state := state;
     _previous_schedule_id := -1;
     _schedule_time := 0;
     _cur_state := PipelineTaskState.NOT_READY;
     _data_state := SourceState.DEPEND_ON_SOURCE;
     _fragment_context := fragment_context;
     _runtime := 0;
     _queue_level := 0;
     _core_id := 0;
     _parent_profile := parent_profile;
     _wait_source_watcher := sw_new;
     _wait_sink_watcher := sw_new;
     _wait_worker_watcher := sw_new;
     _wait_schedule_watcher := sw_new;
     _core_change_times := 0 |}.

(** [_source(_operators.front())] and [_root(_operators.back())]. *)
Definition _source t : Op := Operators.front (_operators t).
Definition _root t : Op := Operators.back (_operators t).

Definition put_in_runnable_queue t : PipelineTask Op W :=
  let t1 := with_schedule_time (Machine.wrap32 (_schedule_time t + 1)) t in
  with_wait_worker_watcher (sw_start (_wait_worker_watcher t1)) t1.

Definition pop_out_runnable_queue t : PipelineTask Op W :=
  with_wait_worker_watcher (sw_stop (_wait_worker_watcher t)) t.

Definition start_schedule_watcher t : PipelineTask Op W :=
  with_wait_schedule_watcher (sw_start (_wait_schedule_watcher t)) t.

Definition stop_schedule_watcher t : PipelineTask Op W :=
  with_wait_schedule_watcher (sw_stop (_wait_schedule_watcher t)) t.

Definition get_state t : PipelineTaskState.t := _cur_state t.

Definition is_pending_finish t : bool :=
  op_is_pending_finish (_source t) || op_is_pending_finish (_sink t).

Definition source_can_read t : bool := op_can_read (_source t).

Definition runtime_filters_are_ready_or_timeout t : bool :=
  op_runtime_filters_are_ready_or_timeout (_source t).

Definition sink_can_write t : bool := op_can_write (_sink t).

Definition can_steal t : bool := _can_steal t.

Definition fragment_context t : FragmentContextPtr := _fragment_context t.

Definition get_previous_core_id (h : Pipeline.Heap) t : Z :=
  if negb (_previous_schedule_id t =? -1)
  then _previous_schedule_id t
  else Pipeline._previous_schedule_id (h (_pipeline t)).

Definition set_previous_core_id (id : Z) t : PipelineTask Op W :=
  if id =? _previous_schedule_id t then t
  else
    let t1 :=
      if negb (_previous_schedule_id t =? -1)
      then with_core_change_times (COUNTER_UPDATE (_core_change_times t) 1) t
      else t in
    with_previous_schedule_id id t1.

Definition get_root t : Op := _root t.

(** [_runtime] is a [uint64_t]: [+=] is addition modulo 2^64. *)
Definition inc_runtime_ns (delta_time : Z) t : PipelineTask Op W :=
  with_runtime (Machine.wrap64 (_runtime t + delta_time)) t.

Definition get_runtime_ns t : Z := _runtime t.

Definition update_queue_level (queue_level : Z) t : PipelineTask Op W :=
  with_queue_level queue_level t.

Definition get_queue_level t : Z := _queue_level t.

Definition set_core_id (core_id : Z) t : PipelineTask Op W :=
  with_core_id core_id t.

Definition get_core_id t : Z := _core_id t.

(** The calls of the header that are defined inline and change the task. *)
Inductive Call : Type :=
| Call_put_in_runnable_queue
| Call_pop_out_runnable_queue
| Call_start_schedule_watcher
| Call_stop_schedule_watcher
| Call_set_previous_core_id (id : Z)
| Call_inc_runtime_ns (delta_time : Z)
| Call_update_queue_level (queue_level : Z)
| Call_set_core_id (core_id : Z).

Definition is_inc_runtime_ns (c : Call) : bool :=
  match c with Call_inc_runtime_ns _ => true | _ => false end.

Definition run_call (c : Call) t : PipelineTask Op W :=
  match c with
  | Call_put_in_runnable_queue => put_in_runnable_queue t
  | Call_pop_out_runnable_queue => pop_out_runnable_queue t
  | Call_start_schedule_watcher => start_schedule_watcher t
  | Call_stop_schedule_watcher => stop_schedule_watcher t
  | Call_set_previous_core_id id => set_previous_core_id id t
  | Call_inc_runtime_ns delta_time => inc_runtime_ns delta_time t
  | Call_update_queue_level queue_level => update_queue_level queue_level t
  | Call_set_core_id core_id => set_core_id core_id t
  end.

Definition run_calls (cs : list Call) t : PipelineTask Op W :=
  fold_left (fun acc c => run_call c acc) cs t.

(** [n] rounds of entering and leaving the runnable queue. *)
Definition requeue (n : N) t : PipelineTask Op W :=
  N.iter n (fun a => pop_out_runnable_queue (put_in_runnable_queue a)) t.

(** The unsigned members hold values of their type. *)
Definition fields_in_range t : Prop :=
  Machine.is_uint32 (_schedule_time t) /\ Machine.is_uint64 (_runtime t).

(** The nanoseconds a call adds to the runtime, and their sum over a
    sequence of calls. *)
Definition call_delta (c : Call) : Z :=
  match c with Call_inc_runtime_ns delta_time => delta_time | _ => 0 end.

Definition total_delta (cs : list Call) : Z :=
  fold_right (fun c acc => call_delta c + acc) 0 cs.

(** The runtime charged for [n] slices that each used the whole of
    [THREAD_TIME_SLICE]. *)
Definition charge_slices (n : N) t : PipelineTask Op W :=
  N.iter n (inc_runtime_ns THREAD_TIME_SLICE) t.

(** A run of core assignments, one [set_previous_core_id] per slice the task
    was given, in the order of the slices. *)
Definition assign_cores (ids : list Z) t : PipelineTask Op W :=
  fold_left (fun a id => set_previous_core_id id a) ids t.

(** The number of places in [prev :: ids] where a core differs from the one
    before it. *)
Fixpoint adjacent_changes (prev : Z) (ids : list Z) : Z :=
  match ids with
  | [] => 0
  | id :: ids' => (if id =? prev then 0 else 1) + adjacent_changes id ids'
  end.



End Task.

(** ** [class MultiCastDataStreamerSourceOperator]

    [vec/core/block.h] is not part of the excerpt: a block is known by its
    row count.  [RuntimeState*] and [Block*] may be null. *)
Record Block : Type := { rows : N }.

Module MultiCastDataStreamerSourceOperator.

Record t : Type := {
  _consumer_id : Z;
  _multi_cast_data_streamer : nat
}.

(** What a call leaves behind: the status it returns, the operator and the
    block it was given. *)
Record Outcome : Type := {
  status : Status;
  self_after : t;
  block_after : option Block
}.

Definition prepare (self : t) (state : RuntimeStatePtr) : Status * t :=
  (OK, self).

Definition open (self : t) (state : RuntimeStatePtr) : Status * t :=
  (OK, self).

Definition sink (self : t) (state : RuntimeStatePtr) (block : option Block)
    (source_state : SourceState.t) : Outcome :=
  {| status := OK; self_after := self; block_after := block |}.

(** The calls of the operator that are defined in the header, and a run of
    them on one operator: the statuses returned, in order, and the operator
    left. *)
Inductive Call : Type :=
| Call_prepare (state : RuntimeStatePtr)
| Call_open (state : RuntimeStatePtr)
| Call_sink (state : RuntimeStatePtr) (block : option Block)
    (source_state : SourceState.t).

Definition run_call (c : Call) (self : t) : Status * t :=
  match c with
  | Call_prepare state => prepare self state
  | Call_open state => open self state
  | Call_sink state block source_state =>
      let r := sink self state block source_state in
      (status r, self_after r)
  end.

Fixpoint run_calls (cs : list Call) (self : t) : list Status * t :=
  match cs with
  | [] => ([], self)
  | c :: cs' =>
      let (st, self') := run_call c self in
      let (sts, self'') := run_calls cs' self' in
      (st :: sts, self'')
  end.

End MultiCastDataStreamerSourceOperator.

(** ** The state machine *)

Module Fsm.

Import PipelineTaskState.

(** The transfers 0 to 9 listed in the comment above [PipelineTaskState],
    where BLOCKED stands for the three states [is_BLOCKED] accepts. *)
Definition transfer (n : nat) (from to : t) : bool :=
  match n with
  | 0%nat => eqb from NOT_READY && is_BLOCKED to
  | 1%nat => eqb from NOT_READY && eqb to RUNNABLE
  | 2%nat => is_BLOCKED from && eqb to RUNNABLE
  | 3%nat => eqb from RUNNABLE && is_BLOCKED to
  | 4%nat => eqb from RUNNABLE && eqb to CANCELED
  | 5%nat => eqb from RUNNABLE && eqb to PENDING_FINISH
  | 6%nat => eqb from PENDING_FINISH && eqb to CANCELED
  | 7%nat => eqb from PENDING_FINISH && eqb to FINISHED
  | 8%nat => eqb from RUNNABLE && eqb to FINISHED
  | 9%nat => eqb from RUNNABLE && eqb to RUNNABLE
  | _ => false
  end.



(** Modelled from the spec: [set_state] and the code that calls it
    ([prepare], [execute], the two schedulers) are not part of the excerpt.
    Section 4.3 gives the transitions as a table, "complete", one row per
    trigger; [Trigger] names the rows in the table's order. *)
Inductive Trigger : Type :=
| Child_not_finished_at_prepare
| Children_finished_at_prepare
| Last_child_finished
| Runtime_filters_not_ready
| Runtime_filters_ready_or_timeout
| Source_has_nothing_to_read
| Source_can_read
| Sink_cannot_write
| Sink_can_write
| Time_slice_exhausted
| Eos_sunk_pending_finish
| Eos_sunk_not_pending_finish
| Release_completed
| Cancellation_observed.

(** Modelled from the spec: the From and To columns of the table of
    section 4.3; [None] where the table has no row for the trigger. *)
Definition next (from : t) (tr : Trigger) : option t :=
  match tr, from with
  | Child_not_finished_at_prepare, NOT_READY => Some BLOCKED_FOR_DEPENDENCY
  | Children_finished_at_prepare, NOT_READY => Some RUNNABLE
  | Last_child_finished, BLOCKED_FOR_DEPENDENCY => Some RUNNABLE
  | Runtime_filters_not_ready, RUNNABLE => Some BLOCKED_FOR_RF
  | Runtime_filters_ready_or_timeout, BLOCKED_FOR_RF => Some RUNNABLE
  | Source_has_nothing_to_read, RUNNABLE => Some BLOCKED_FOR_SOURCE
  | Source_can_read, BLOCKED_FOR_SOURCE => Some RUNNABLE
  | Sink_cannot_write, RUNNABLE => Some BLOCKED_FOR_SINK
  | Sink_can_write, BLOCKED_FOR_SINK => Some RUNNABLE
  | Time_slice_exhausted, RUNNABLE => Some RUNNABLE
  | Eos_sunk_pending_finish, RUNNABLE => Some PENDING_FINISH
  | Eos_sunk_not_pending_finish, RUNNABLE => Some FINISHED
  | Release_completed, PENDING_FINISH => Some FINISHED
  | Cancellation_observed,
    (RUNNABLE | PENDING_FINISH | BLOCKED_FOR_DEPENDENCY | BLOCKED_FOR_SOURCE
     | BLOCKED_FOR_SINK | BLOCKED_FOR_RF) => Some CANCELED
  | _, _ => None
  end.

(** Modelled from the spec: where a task is (section 5: a task queue level,
    the blocked task scheduler, a worker's execute frame, the terminal set)
    and the states of the tasks each place holds (section 4.5: runnable
    tasks are queued and executed, blocked and pending-finish tasks are
    parked in the blocked task scheduler's lists, finished and cancelled
    tasks are finalized). *)
Inductive Holder : Type :=
| Task_queue_level
| Worker_execute_frame
| Blocked_task_scheduler
| Terminal_set.

Definition holds (h : Holder) (s : t) : bool :=
  match h with
  | Task_queue_level | Worker_execute_frame => eqb s RUNNABLE
  | Blocked_task_scheduler => is_blocked s || eqb s PENDING_FINISH
  | Terminal_set => is_terminal s
  end.

(** Modelled from the spec: what the holder of a task has observed when it
    decides on a transition; the facts the Trigger column of the table
    refers to that are not answers of the task's own operators. *)
Record Observation : Type := {
  fragment_canceled : bool;
  prepare_completed : bool;
  unfinished_children : nat;
  first_block_done : bool;
  block_has_zero_rows : bool;
  sink_returned_ok : bool;
  eos_sunk : bool;
  elapsed_ns : Z
}.

End Fsm.

Section Lifecycle.

Context {Op W : Type} `{OperatorBase Op} `{StopWatch W}.
Implicit Type t : PipelineTask Op W.

Import Fsm.

(** Modelled from the spec: the body of [set_state] is not part of the
    excerpt.  It records the new state; the timers it also updates are not
    described and stay as they are. *)
Definition set_state (state : PipelineTaskState.t) t : PipelineTask Op W :=
  with_cur_state state t.

(** The trigger of the row PENDING_FINISH to FINISHED written after the
    words of the specification, "Neither source nor sink is pending_finish",
    to be compared with [is_pending_finish] of the header. *)
Definition neither_source_nor_sink_pending_finish t : bool :=
  negb (op_is_pending_finish (_source t))
  && negb (op_is_pending_finish (_sink t)).

(** Modelled from the spec: the Trigger column of the table of section 4.3,
    evaluated on what the holder observed and on the task. *)
Definition trigger_holds (obs : Observation) t (tr : Trigger) : bool :=
  match tr with
  | Child_not_finished_at_prepare =>
      prepare_completed obs && negb (Nat.eqb (unfinished_children obs) 0)
  | Children_finished_at_prepare =>
      prepare_completed obs && Nat.eqb (unfinished_children obs) 0
  | Last_child_finished => Nat.eqb (unfinished_children obs) 0
  | Runtime_filters_not_ready =>
      negb (first_block_done obs)
      && negb (runtime_filters_are_ready_or_timeout t)
  | Runtime_filters_ready_or_timeout => runtime_filters_are_ready_or_timeout t
  | Source_has_nothing_to_read =>
      block_has_zero_rows obs
      && negb (match _data_state t with
               | SourceState.FINISHED => true
               | _ => false
               end)
      && negb (source_can_read t)
  | Source_can_read => source_can_read t
  | Sink_cannot_write => sink_returned_ok obs && negb (sink_can_write t)
  | Sink_can_write => sink_can_write t
  | Time_slice_exhausted => THREAD_TIME_SLICE <=? elapsed_ns obs
  | Eos_sunk_pending_finish => eos_sunk obs && is_pending_finish t
  | Eos_sunk_not_pending_finish => eos_sunk obs && negb (is_pending_finish t)
  | Release_completed => neither_source_nor_sink_pending_finish t
  | Cancellation_observed => fragment_canceled obs
  end.

(** Modelled from the spec: a row fires when its trigger holds in the state
    of its From column; the change goes through [set_state]. *)
Definition fire (obs : Observation) (tr : Trigger) t
  : option (PipelineTask Op W) :=
  if trigger_holds obs t tr
  then option_map (fun s => set_state s t) (next (get_state t) tr)
  else None.

(** The task as its holder leaves it once it has looked at the fragment's
    cancellation flag. *)
Definition observe_cancellation (obs : Observation) t : PipelineTask Op W :=
  match fire obs Cancellation_observed t with
  | Some t' => t'
  | None => t
  end.

(** Modelled from the spec: the body of [try_close] is not part of the
    excerpt.  Section 4.3: it "initiates teardown on every operator in chain
    order", the chain being the operators from the source to the root and
    then the sink.  How the operators' statuses make the returned status is
    not described: [combine] stands for it. *)
Fixpoint try_close_each (ops : list Op) : list Status * list Op :=
  match ops with
  | [] => ([], [])
  | o :: ops' =>
      let (st, o') := op_try_close o in
      let (sts, os') := try_close_each ops' in
      (st :: sts, o' :: os')
  end.

Variable combine : list Status -> Status.

Definition try_close t : Status * PipelineTask Op W :=
  let (st_first, first') := op_try_close (Operators.first (_operators t)) in
  let (sts_rest, rest') := try_close_each (Operators.rest (_operators t)) in
  let (st_sink, sink') := op_try_close (_sink t) in
  (combine (st_first :: sts_rest ++ [st_sink]),
   with_sink sink'
     (with_operators
        {| Operators.first := first'; Operators.rest := rest' |} t)).

End Lifecycle.

(** Modelled from the spec: the operator contract of section 3,
    "[try_close] is idempotent": a second call returns the status of the
    first and leaves the operator as the first left it. *)
Class OperatorContract (Op : Type) `{OperatorBase Op} : Prop := {
  op_try_close_idempotent :
    forall o : Op, op_try_close (snd (op_try_close o)) = op_try_close o
}.

(** ** Concrete instances

    A stop watch that counts its completed laps, and an operator with the
    switches the task header asks about: an operator is pending finish while
    requests it issued are in flight, and [try_close] marks it as closing. *)

Record LapWatch : Type := { running : bool; laps : nat }.

#[export] Instance LapWatch_StopWatch : StopWatch LapWatch :=
  {| sw_new := {| running := false; laps := 0 |};
     sw_start := fun w => {| running := true; laps := laps w |};
     sw_stop := fun w =>
       {| running := false;
          laps := if running w then S (laps w) else laps w |};
     sw_running := running;
     sw_running_new := eq_refl;
     sw_running_start := fun _ => eq_refl;
     sw_running_stop := fun _ => eq_refl |}.

Record SwitchOp : Type := {
  readable : bool;
  writable : bool;
  filters_ready : bool;
  in_flight : nat;
  close_code : Z;
  closing : bool
}.

Definition SwitchOp_try_close (o : SwitchOp) : Status * SwitchOp :=
  (if close_code o =? 0 then OK else Error (close_code o),
   {| readable := readable o;
      writable := writable o;
      filters_ready := filters_ready o;
      in_flight := in_flight o;
      close_code := close_code o;
      closing := true |}).

#[export] Instance SwitchOp_OperatorBase : OperatorBase SwitchOp :=
  {| op_can_read := readable;
     op_can_write := writable;
     op_is_pending_finish := fun o => negb (Nat.eqb (in_flight o) 0);
     op_runtime_filters_are_ready_or_timeout := filters_ready;
     op_try_close := SwitchOp_try_close |}.

#[export] Instance SwitchOp_OperatorContract : OperatorContract SwitchOp :=
  {| op_try_close_idempotent := fun _ => eq_refl |}.

Module Sample.

Definition scan : SwitchOp :=
  {| readable := true; writable := false; filters_ready := true;
     in_flight := 2; close_code := 0; closing := false |}.

Definition project : SwitchOp :=
  {| readable := true; writable := true; filters_ready := true;
     in_flight := 0; close_code := 7; closing := false |}.

Definition result_sink : SwitchOp :=
  {| readable := false; writable := true; filters_ready := true;
     in_flight := 0; close_code := 0; closing := false |}.

Definition pipeline : Pipeline.t :=
  {| Pipeline._can_steal := true;
     Pipeline._previous_schedule_id := 5;
     Pipeline._parents := [] |}.

Definition heap : Pipeline.Heap := fun _ => pipeline.

(** A task as the constructor leaves it. *)
Definition fresh : PipelineTask SwitchOp LapWatch :=
  PipelineTask_new heap 0%nat 0 None
    {| Operators.first := scan; Operators.rest := [project] |}
    result_sink None None.

(** The same task while it waits in the blocked task scheduler. *)
Definition parked : PipelineTask SwitchOp LapWatch :=
  set_state PipelineTaskState.BLOCKED_FOR_SOURCE fresh.

Definition canceled_observation : Fsm.Observation :=
  {| Fsm.fragment_canceled := true;
     Fsm.prepare_completed := true;
     Fsm.unfinished_children := 0;
     Fsm.first_block_done := false;
     Fsm.block_has_zero_rows := true;
     Fsm.sink_returned_ok := true;
     Fsm.eos_sunk := false;
     Fsm.elapsed_ns := 0 |}.

(** The first error of the chain, [OK] when there is none. *)
Fixpoint first_error (sts : list Status) : Status :=
  match sts with
  | [] => OK
  | OK :: sts' => first_error sts'
  | Error c :: _ => Error c
  end.

(** A task whose schedule count stands at 4294967295, and one that has been
    charged 2^64 - 1 nanoseconds in one call. *)
Definition often_scheduled : PipelineTask SwitchOp LapWatch :=
  with_schedule_time Machine.UINT32_MAX fresh.

Definition long_running : PipelineTask SwitchOp LapWatch :=
  inc_runtime_ns Machine.UINT64_MAX fresh.

(** A worker's bookkeeping around two slices of a task. *)
Definition two_slices : list Call :=
  [Call_put_in_runnable_queue; Call_pop_out_runnable_queue;
   Call_set_previous_core_id 3; Call_inc_runtime_ns 100000000;
   Call_update_queue_level 0; Call_put_in_runnable_queue;
   Call_pop_out_runnable_queue; Call_set_previous_core_id 4;
   Call_inc_runtime_ns 25000000].

(** The cores of five slices: the task stays on core 3, moves to core 4 and
    comes back. *)
Definition five_slices : list Z := [3; 3; 4; 4; 3].

(** A pipeline with two parents, and the heap that holds it at address 0. *)
Definition child_pipeline : Pipeline.t :=
  {| Pipeline._can_steal := false;
     Pipeline._previous_schedule_id := 5;
     Pipeline._parents := [1%nat; 2%nat] |}.

Definition family_heap : Pipeline.Heap :=
  Pipeline.store heap 0%nat child_pipeline.

End Sample.

(** * Properties *)

(** ** Machine arithmetic *)

Lemma wrap32_small (z : Z) : Machine.is_uint32 z -> Machine.wrap32 z = z.
Proof. unfold Machine.is_uint32, Machine.wrap32. apply Z.mod_small. Qed.

Lemma wrap64_small (z : Z) : Machine.is_uint64 z -> Machine.wrap64 z = z.
Proof. unfold Machine.is_uint64, Machine.wrap64. apply Z.mod_small. Qed.

Lemma wrap32_range (z : Z) : Machine.is_uint32 (Machine.wrap32 z).
Proof.
  unfold Machine.is_uint32, Machine.wrap32, Machine.UINT32_MODULUS.
  apply Z.mod_pos_bound. reflexivity.
Qed.

Lemma wrap64_range (z : Z) : Machine.is_uint64 (Machine.wrap64 z).
Proof.
  unfold Machine.is_uint64, Machine.wrap64, Machine.UINT64_MODULUS.
  apply Z.mod_pos_bound. reflexivity.
Qed.

Lemma wrap32_succ (a : Z) :
  Machine.wrap32 (Machine.wrap32 a + 1) = Machine.wrap32 (a + 1).
Proof. unfold Machine.wrap32. apply Zplus_mod_idemp_l. Qed.

(** ** The enumeration *)

(** The enumerators have distinct values that fit a [uint8_t], and distinct
    names. *)
Lemma PipelineTaskState_values_and_names (a b : PipelineTaskState.t) :
  0 <= PipelineTaskState.to_uint8 a < 2 ^ 8
  /\ (PipelineTaskState.to_uint8 a = PipelineTaskState.to_uint8 b -> a = b)
  /\ (get_state_name a = get_state_name b -> a = b)
  /\ In a PipelineTaskState.all.
Proof.
  split; [destruct a; split; (discriminate || reflexivity)|].
  split; [destruct a, b; (reflexivity || discriminate)|].
  split; [destruct a, b; (reflexivity || discriminate)|].
  destruct a; cbn; tauto.
Qed.

(** ** The time slice *)

(** C3: [THREAD_TIME_SLICE] is 100 milliseconds counted in nanoseconds, that
    is 100000000 = 1e8, the default of the tunable [pipeline_time_slice_ns];
    the literal fits the [long] it is declared with. *)
Theorem THREAD_TIME_SLICE_is_100_ms :
  THREAD_TIME_SLICE = 100 * NANOS_PER_MILLI
  /\ THREAD_TIME_SLICE = 100000000
  /\ THREAD_TIME_SLICE = 10 ^ 8
  /\ THREAD_TIME_SLICE = pipeline_time_slice_ns_default
  /\ 0 < THREAD_TIME_SLICE <= Machine.INT64_MAX.
Proof. repeat split; try reflexivity. discriminate. Qed.

(** ** Construction and the terminal states *)

Lemma no_transfer_from_terminal (n : nat) (s to : PipelineTaskState.t) :
  PipelineTaskState.is_terminal s = true -> Fsm.transfer n s to = false.
Proof.
  intros Hs.
  do 10 (destruct n as [|n]; [destruct s; try discriminate Hs; reflexivity|]).
  reflexivity.
Qed.

Lemma no_row_from_terminal (s : PipelineTaskState.t) (tr : Fsm.Trigger) :
  PipelineTaskState.is_terminal s = true -> Fsm.next s tr = None.
Proof. intros Hs; destruct s; try discriminate Hs; destruct tr; reflexivity. Qed.

Section StateProperties.

Context {Op W : Type} `{OperatorBase Op} `{StopWatch W}.
Implicit Type t : PipelineTask Op W.

Lemma fire_from_terminal (obs : Fsm.Observation) (tr : Fsm.Trigger) t :
  PipelineTaskState.is_terminal (get_state t) = true -> fire obs tr t = None.
Proof.
  intros Hs. unfold fire.
  rewrite (no_row_from_terminal _ tr Hs).
  destruct (trigger_holds obs t tr); reflexivity.
Qed.

Lemma set_previous_core_id_cases (id : Z) t :
  set_previous_core_id id t = t
  \/ set_previous_core_id id t = with_previous_schedule_id id t
  \/ set_previous_core_id id t
     = with_previous_schedule_id id
         (with_core_change_times (_core_change_times t + 1) t).
Proof.
  unfold set_previous_core_id.
  destruct (id =? _previous_schedule_id t); [left; reflexivity|].
  destruct (negb (_previous_schedule_id t =? -1)); right;
    [right | left]; reflexivity.
Qed.

Lemma run_call_keeps_state (c : Call) t :
  get_state (run_call c t) = get_state t.
Proof.
  destruct c; cbn; try reflexivity.
  destruct (set_previous_core_id_cases id t) as [E|[E|E]]; rewrite E;
    reflexivity.
Qed.

Lemma run_calls_keep_state (cs : list Call) t :
  get_state (run_calls cs t) = get_state t.
Proof.
  revert t. induction cs as [|c cs IH]; intros t; [reflexivity|].
  change (run_calls (c :: cs) t) with (run_calls cs (run_call c t)).
  rewrite IH. apply run_call_keeps_state.
Qed.

(** C5: a task is constructed in state NOT_READY, which is what [get_state]
    returns then and after any of the header's inline calls, none of which
    touches the state; FINISHED and CANCELED are terminal: none of the ten
    transfers of the header's diagram and no row of the transition table
    leaves them, whatever the trigger and whatever was observed. *)
Theorem constructed_NOT_READY_and_terminal_states_final :
  (forall h pipeline index state operators sink fragment_context
          parent_profile,
      get_state
        (PipelineTask_new (Op := Op) (W := W) h pipeline index state
           operators sink fragment_context parent_profile)
      = PipelineTaskState.NOT_READY)
  /\ (forall cs h pipeline index state operators sink fragment_context
             parent_profile,
         get_state
           (run_calls cs
              (PipelineTask_new (Op := Op) (W := W) h pipeline index state
                 operators sink fragment_context parent_profile))
         = PipelineTaskState.NOT_READY)
  /\ (forall n to,
         Fsm.transfer n PipelineTaskState.FINISHED to = false
         /\ Fsm.transfer n PipelineTaskState.CANCELED to = false)
  /\ (forall tr,
         Fsm.next PipelineTaskState.FINISHED tr = None
         /\ Fsm.next PipelineTaskState.CANCELED tr = None)
  /\ (forall obs tr t,
         (get_state t = PipelineTaskState.FINISHED
          \/ get_state t = PipelineTaskState.CANCELED) ->
         fire obs tr t = None).
Proof.
  split; [reflexivity|].
  split; [intros; rewrite run_calls_keep_state; reflexivity|].
  split; [intros n to; split; apply no_transfer_from_terminal; reflexivity|].
  split; [intros tr; split; apply no_row_from_terminal; reflexivity|].
  intros obs tr t [Hs|Hs]; apply fire_from_terminal; rewrite Hs; reflexivity.
Qed.

End StateProperties.

(** ** The previous core *)

Section CoreProperties.

Context {Op W : Type} `{OperatorBase Op} `{StopWatch W}.
Implicit Type t : PipelineTask Op W.

(** C10: [get_previous_core_id] returns the task's own last core when one is
    recorded (the recorded id is not -1), and the core hint of the task's
    pipeline, read through [_pipeline], otherwise. *)
Theorem get_previous_core_id_own_or_pipeline (h : Pipeline.Heap) t :
  (_previous_schedule_id t <> -1 ->
   get_previous_core_id h t = _previous_schedule_id t)
  /\ (_previous_schedule_id t = -1 ->
      get_previous_core_id h t
      = Pipeline._previous_schedule_id (h (_pipeline t))).
Proof.
  unfold get_previous_core_id.
  destruct (Z.eqb_spec (_previous_schedule_id t) (-1)) as [E|E]; cbn;
    split; intro; congruence.
Qed.

(** The core hint is read from the pipeline at the time of the call: while
    the task has no core of its own, a hint stored in its pipeline by
    another holder is what [get_previous_core_id] returns next; a task with
    a core of its own does not see it. *)
Lemma get_previous_core_id_reads_shared_pipeline
    (h : Pipeline.Heap) (hint : Z) t :
  let h' :=
    Pipeline.store h (_pipeline t)
      (Pipeline.set_previous_schedule_id hint (h (_pipeline t))) in
  (_previous_schedule_id t = -1 -> get_previous_core_id h' t = hint)
  /\ (_previous_schedule_id t <> -1 ->
      get_previous_core_id h' t = get_previous_core_id h t).
Proof.
  unfold get_previous_core_id, Pipeline.store. cbn zeta.
  rewrite Nat.eqb_refl.
  destruct (Z.eqb_spec (_previous_schedule_id t) (-1)) as [E|E]; cbn;
    split; intro; congruence.
Qed.

(** The three ways [set_previous_core_id] ends. *)
Lemma set_previous_core_id_same (id : Z) t :
  id = _previous_schedule_id t -> set_previous_core_id id t = t.
Proof.
  intros E. unfold set_previous_core_id.
  rewrite (proj2 (Z.eqb_eq _ _) E). reflexivity.
Qed.

Lemma set_previous_core_id_first (id : Z) t :
  id <> _previous_schedule_id t -> _previous_schedule_id t = -1 ->
  set_previous_core_id id t = with_previous_schedule_id id t.
Proof.
  intros N E. unfold set_previous_core_id.
  rewrite (proj2 (Z.eqb_neq _ _) N), E. reflexivity.
Qed.

Lemma set_previous_core_id_change (id : Z) t :
  id <> _previous_schedule_id t -> _previous_schedule_id t <> -1 ->
  set_previous_core_id id t
  = with_previous_schedule_id id
      (with_core_change_times (_core_change_times t + 1) t).
Proof.
  intros N E. unfold set_previous_core_id.
  rewrite (proj2 (Z.eqb_neq _ _) N), (proj2 (Z.eqb_neq _ _) E). reflexivity.
Qed.

Lemma set_previous_core_id_records (id : Z) t :
  _previous_schedule_id (set_previous_core_id id t) = id.
Proof.
  destruct (Z.eq_dec id (_previous_schedule_id t)) as [E|N].
  - rewrite (set_previous_core_id_same id t E). symmetry. exact E.
  - destruct (Z.eq_dec (_previous_schedule_id t) (-1)) as [F|F].
    + rewrite (set_previous_core_id_first id t N F). reflexivity.
    + rewrite (set_previous_core_id_change id t N F). reflexivity.
Qed.

(** C4, as the code has it: the counter of core changes grows by one when
    the new id differs from the recorded one and a core was recorded before
    (the recorded id is not -1); it is unchanged when the id is the recorded
    one and when no core was recorded yet.  In every case the recorded id is
    the new one afterwards. *)
Theorem set_previous_core_id_counts_changes (id : Z) t :
  (id <> _previous_schedule_id t -> _previous_schedule_id t <> -1 ->
   _core_change_times (set_previous_core_id id t)
   = _core_change_times t + 1)
  /\ (id = _previous_schedule_id t \/ _previous_schedule_id t = -1 ->
      _core_change_times (set_previous_core_id id t) = _core_change_times t)
  /\ _previous_schedule_id (set_previous_core_id id t) = id.
Proof.
  split; [|split; [|apply set_previous_core_id_records]].
  - intros N F. rewrite (set_previous_core_id_change id t N F). reflexivity.
  - intros D.
    destruct (Z.eq_dec id (_previous_schedule_id t)) as [E|N].
    + rewrite (set_previous_core_id_same id t E). reflexivity.
    + destruct D as [E|F]; [contradiction|].
      rewrite (set_previous_core_id_first id t N F). reflexivity.
Qed.

(** After [set_previous_core_id id] with a core id other than -1 the task
    answers [id], whatever its pipeline says. *)
Lemma get_previous_core_id_after_set (h : Pipeline.Heap) (id : Z) t :
  id <> -1 -> get_previous_core_id h (set_previous_core_id id t) = id.
Proof.
  intros N. unfold get_previous_core_id.
  rewrite set_previous_core_id_records, (proj2 (Z.eqb_neq _ _) N).
  reflexivity.
Qed.

End CoreProperties.

(** C4, as the claim states it, fails on a task that has not run yet: the
    constructor records -1, [set_previous_core_id 0] records 0, which
    differs, and the counter stays where it was. *)
Lemma set_previous_core_id_first_core_not_counted :
  0 <> _previous_schedule_id Sample.fresh
  /\ _core_change_times (set_previous_core_id 0 Sample.fresh)
     = _core_change_times Sample.fresh
  /\ ~ (forall (t : PipelineTask SwitchOp LapWatch) (id : Z),
           id <> _previous_schedule_id t ->
           _core_change_times t
           < _core_change_times (set_previous_core_id id t)).
Proof.
  split; [discriminate|]. split; [reflexivity|].
  intros A. specialize (A Sample.fresh 0). cbn in A.
  assert (0 < 0) as Bad by (apply A; discriminate).
  lia.
Qed.

Lemma set_previous_core_id_counts_changes_witness :
  _core_change_times
    (set_previous_core_id 4 (set_previous_core_id 3 Sample.fresh))
  = _core_change_times (set_previous_core_id 3 Sample.fresh) + 1.
Proof.
  apply (proj1 (set_previous_core_id_counts_changes 4
                  (set_previous_core_id 3 Sample.fresh))); discriminate.
Defined.

Lemma get_previous_core_id_own_or_pipeline_witness :
  get_previous_core_id Sample.heap Sample.fresh = 5
  /\ get_previous_core_id Sample.heap (set_previous_core_id 3 Sample.fresh)
     = 3.
Proof.
  split.
  - apply (proj2 (get_previous_core_id_own_or_pipeline Sample.heap
                    Sample.fresh)). reflexivity.
  - apply (proj1 (get_previous_core_id_own_or_pipeline Sample.heap
                    (set_previous_core_id 3 Sample.fresh))). discriminate.
Defined.

Lemma get_previous_core_id_after_set_witness :
  get_previous_core_id Sample.heap (set_previous_core_id 3 Sample.fresh) = 3.
Proof.
  apply (get_previous_core_id_after_set Sample.heap 3 Sample.fresh).
  discriminate.
Defined.

(** ** The runnable queue *)

Section QueueProperties.

Context {Op W : Type} `{OperatorBase Op} `{StopWatch W}.
Implicit Type t : PipelineTask Op W.

Lemma put_in_runnable_queue_schedule_time t :
  _schedule_time (put_in_runnable_queue t)
  = Machine.wrap32 (_schedule_time t + 1).
Proof. reflexivity. Qed.

Lemma put_in_runnable_queue_below_max t :
  0 <= _schedule_time t < Machine.UINT32_MAX ->
  _schedule_time (put_in_runnable_queue t) = _schedule_time t + 1.
Proof.
  intros R. rewrite put_in_runnable_queue_schedule_time.
  apply wrap32_small. unfold Machine.is_uint32.
  unfold Machine.UINT32_MAX in R. lia.
Qed.

Lemma put_in_runnable_queue_at_max t :
  _schedule_time t = Machine.UINT32_MAX ->
  _schedule_time (put_in_runnable_queue t) = 0.
Proof.
  intros E. rewrite put_in_runnable_queue_schedule_time, E. reflexivity.
Qed.

Lemma requeue_schedule_time (n : N) t :
  Machine.is_uint32 (_schedule_time t) ->
  _schedule_time (requeue n t)
  = Machine.wrap32 (_schedule_time t + Z.of_N n).
Proof.
  intros R. unfold requeue. induction n as [|n IH] using N.peano_ind.
  - cbn. rewrite Z.add_0_r. symmetry. apply wrap32_small. exact R.
  - rewrite N.iter_succ.
    change (_schedule_time (pop_out_runnable_queue (put_in_runnable_queue ?a)))
      with (Machine.wrap32 (_schedule_time a + 1)).
    rewrite IH, wrap32_succ, N2Z.inj_succ.
    f_equal. lia.
Qed.

(** C7, as the code has it: entering the runnable queue adds one to the
    schedule count in [uint32_t] arithmetic (exactly one below 4294967295,
    from where the count returns to 0) and starts the wait-for-worker watch,
    touching no other watch; leaving the queue stops that watch and leaves
    the count alone, so that after the matching dequeue the watch is the
    started one, stopped. *)
Theorem runnable_queue_counts_and_times t :
  _schedule_time (put_in_runnable_queue t)
  = (_schedule_time t + 1) mod 2 ^ 32
  /\ (0 <= _schedule_time t < Machine.UINT32_MAX ->
      _schedule_time (put_in_runnable_queue t) = _schedule_time t + 1)
  /\ (_schedule_time t = Machine.UINT32_MAX ->
      _schedule_time (put_in_runnable_queue t) = 0)
  /\ _wait_worker_watcher (put_in_runnable_queue t)
     = sw_start (_wait_worker_watcher t)
  /\ sw_running (_wait_worker_watcher (put_in_runnable_queue t)) = true
  /\ _wait_worker_watcher (pop_out_runnable_queue (put_in_runnable_queue t))
     = sw_stop (sw_start (_wait_worker_watcher t))
  /\ sw_running
       (_wait_worker_watcher
          (pop_out_runnable_queue (put_in_runnable_queue t))) = false
  /\ _schedule_time (pop_out_runnable_queue t) = _schedule_time t
  /\ _wait_schedule_watcher (put_in_runnable_queue t)
     = _wait_schedule_watcher t
  /\ _wait_source_watcher (put_in_runnable_queue t) = _wait_source_watcher t
  /\ _wait_sink_watcher (put_in_runnable_queue t) = _wait_sink_watcher t.
Proof.
  split; [reflexivity|].
  split; [apply put_in_runnable_queue_below_max|].
  split; [apply put_in_runnable_queue_at_max|].
  split; [reflexivity|].
  split; [apply sw_running_start|].
  split; [reflexivity|].
  split; [apply sw_running_stop|].
  repeat split.
Qed.

End QueueProperties.

(** C7, as the claim states it, fails at the top of the counter's range: the
    schedule count of a task that entered the queue 4294967295 times is 0
    after the next enqueue, not one more. *)
Lemma put_in_runnable_queue_wraps_at_uint32_max :
  Machine.is_uint32 (_schedule_time Sample.often_scheduled)
  /\ _schedule_time (put_in_runnable_queue Sample.often_scheduled) = 0
  /\ ~ (forall t : PipelineTask SwitchOp LapWatch,
           Machine.is_uint32 (_schedule_time t) ->
           _schedule_time (put_in_runnable_queue t) = _schedule_time t + 1).
Proof.
  split; [split; [discriminate | reflexivity]|].
  split; [reflexivity|].
  intros A. specialize (A Sample.often_scheduled).
  assert (Machine.is_uint32 (_schedule_time Sample.often_scheduled)) as R
    by (split; [discriminate | reflexivity]).
  specialize (A R). vm_compute in A. discriminate A.
Qed.

(** The schedule count 4294967295 is the one a new task has after that many
    rounds through the runnable queue; one more enqueue brings it to 0. *)
Lemma schedule_time_saturates_after_requeues :
  _schedule_time (requeue 4294967295 Sample.fresh)
  = _schedule_time Sample.often_scheduled
  /\ _schedule_time
       (put_in_runnable_queue (requeue 4294967295 Sample.fresh)) = 0.
Proof.
  assert (_schedule_time (requeue 4294967295 Sample.fresh) = 4294967295) as E
    by (rewrite requeue_schedule_time;
        [reflexivity | split; [discriminate | reflexivity]]).
  split; [exact E|].
  rewrite put_in_runnable_queue_schedule_time, E. reflexivity.
Qed.

Lemma runnable_queue_counts_and_times_witness :
  _schedule_time (put_in_runnable_queue Sample.fresh)
  = _schedule_time Sample.fresh + 1.
Proof.
  apply (proj1 (proj2 (runnable_queue_counts_and_times Sample.fresh))).
  split; [discriminate | reflexivity].
Defined.

(** ** The runtime *)

Section RuntimeProperties.

Context {Op W : Type} `{OperatorBase Op} `{StopWatch W}.
Implicit Type t : PipelineTask Op W.

Lemma inc_runtime_ns_get (delta_time : Z) t :
  get_runtime_ns (inc_runtime_ns delta_time t)
  = Machine.wrap64 (get_runtime_ns t + delta_time).
Proof. reflexivity. Qed.

Lemma inc_runtime_ns_no_overflow (delta_time : Z) t :
  0 <= get_runtime_ns t -> 0 <= delta_time ->
  get_runtime_ns t + delta_time <= Machine.UINT64_MAX ->
  get_runtime_ns (inc_runtime_ns delta_time t)
  = get_runtime_ns t + delta_time.
Proof.
  intros R D S. rewrite inc_runtime_ns_get.
  apply wrap64_small. unfold Machine.is_uint64.
  unfold Machine.UINT64_MAX in S. lia.
Qed.

Lemma other_calls_keep_runtime (c : Call) t :
  is_inc_runtime_ns c = false ->
  get_runtime_ns (run_call c t) = get_runtime_ns t.
Proof.
  destruct c; cbn; intros E; try reflexivity; try discriminate E.
  destruct (set_previous_core_id_cases id t) as [F|[F|F]]; rewrite F;
    reflexivity.
Qed.

(** C8, as the code has it: [inc_runtime_ns delta] leaves in [_runtime] the
    sum of the previous value and [delta] reduced modulo 2^64; as long as
    that sum fits 64 bits the new value is the sum itself and is not smaller
    than the previous value; every other inline call of the header leaves
    [_runtime] as it is. *)
Theorem inc_runtime_ns_adds_modulo_2_64 (delta_time : Z) t :
  get_runtime_ns (inc_runtime_ns delta_time t)
  = (get_runtime_ns t + delta_time) mod 2 ^ 64
  /\ (0 <= get_runtime_ns t -> 0 <= delta_time ->
      get_runtime_ns t + delta_time <= Machine.UINT64_MAX ->
      get_runtime_ns (inc_runtime_ns delta_time t)
      = get_runtime_ns t + delta_time
      /\ get_runtime_ns t <= get_runtime_ns (inc_runtime_ns delta_time t))
  /\ (forall c : Call,
         is_inc_runtime_ns c = false ->
         get_runtime_ns (run_call c t) = get_runtime_ns t).
Proof.
  split; [reflexivity|]. split.
  - intros R D S.
    rewrite (inc_runtime_ns_no_overflow delta_time t R D S). lia.
  - intros c. apply other_calls_keep_runtime.
Qed.

Lemma total_delta_nonneg (cs : list Call) :
  Forall (fun c => 0 <= call_delta c) cs -> 0 <= total_delta cs.
Proof.
  induction 1 as [|c cs Hc _ IH].
  - cbn. lia.
  - change (0 <= call_delta c + total_delta cs). lia.
Qed.

Lemma run_call_runtime (c : Call) t :
  0 <= get_runtime_ns t -> 0 <= call_delta c ->
  get_runtime_ns t + call_delta c <= Machine.UINT64_MAX ->
  get_runtime_ns (run_call c t) = get_runtime_ns t + call_delta c.
Proof.
  intros R D S.
  destruct (is_inc_runtime_ns c) eqn:K.
  - destruct c; try discriminate K. cbn in *.
    apply inc_runtime_ns_no_overflow; assumption.
  - rewrite (other_calls_keep_runtime c t K).
    destruct c; try discriminate K; cbn; lia.
Qed.

(** Over any sequence of the header's inline calls whose increments are not
    negative and do not carry the runtime past 2^64 - 1, the runtime ends as
    the initial runtime plus the increments, and so is never smaller than it
    was. *)
Lemma run_calls_runtime_monotone (cs : list Call) t :
  0 <= get_runtime_ns t ->
  Forall (fun c => 0 <= call_delta c) cs ->
  get_runtime_ns t + total_delta cs <= Machine.UINT64_MAX ->
  get_runtime_ns (run_calls cs t) = get_runtime_ns t + total_delta cs
  /\ get_runtime_ns t <= get_runtime_ns (run_calls cs t).
Proof.
  intros R F. revert t R.
  induction F as [|c cs Hc F IH]; intros t R S.
  - cbn in *. split; lia.
  - change (total_delta (c :: cs)) with (call_delta c + total_delta cs) in *.
    change (run_calls (c :: cs) t) with (run_calls cs (run_call c t)).
    pose proof (total_delta_nonneg cs F) as P.
    assert (get_runtime_ns (run_call c t) = get_runtime_ns t + call_delta c)
      as E by (apply run_call_runtime; lia).
    destruct (IH (run_call c t)) as [E1 E2]; [lia | lia |].
    split; lia.
Qed.

(** The unsigned members stay within their types. *)
Lemma run_call_fields_in_range (c : Call) t :
  fields_in_range t -> fields_in_range (run_call c t).
Proof.
  intros [R32 R64].
  destruct c; cbn; try (split; assumption).
  - split; [apply wrap32_range | exact R64].
  - destruct (set_previous_core_id_cases id t) as [F|[F|F]]; rewrite F;
      split; assumption.
  - split; [exact R32 | apply wrap64_range].
Qed.

Lemma run_calls_fields_in_range (cs : list Call) t :
  fields_in_range t -> fields_in_range (run_calls cs t).
Proof.
  revert t. induction cs as [|c cs IH]; intros t R; [exact R|].
  change (run_calls (c :: cs) t) with (run_calls cs (run_call c t)).
  apply IH, run_call_fields_in_range, R.
Qed.

End RuntimeProperties.

(** C8, as the claim states it, fails when the sum leaves the 64 bits: one
    more nanosecond on a runtime of 2^64 - 1 gives 0, which is neither the
    previous value plus one nor at least the previous value. *)
Lemma inc_runtime_ns_wraps_at_uint64_max :
  Machine.is_uint64 (get_runtime_ns Sample.long_running)
  /\ get_runtime_ns (inc_runtime_ns 1 Sample.long_running) = 0
  /\ get_runtime_ns (inc_runtime_ns 1 Sample.long_running)
     < get_runtime_ns Sample.long_running
  /\ ~ (forall (t : PipelineTask SwitchOp LapWatch) (delta_time : Z),
           Machine.is_uint64 (get_runtime_ns t) ->
           Machine.is_uint64 delta_time ->
           get_runtime_ns (inc_runtime_ns delta_time t)
           = get_runtime_ns t + delta_time
           /\ get_runtime_ns t
              <= get_runtime_ns (inc_runtime_ns delta_time t)).
Proof.
  assert (Machine.is_uint64 (get_runtime_ns Sample.long_running)) as R
    by (split; [discriminate | reflexivity]).
  split; [exact R|].
  split; [reflexivity|].
  split; [reflexivity|].
  intros A. specialize (A Sample.long_running 1 R).
  assert (Machine.is_uint64 1) as D by (split; [discriminate | reflexivity]).
  destruct (A D) as [E _]. vm_compute in E. discriminate E.
Qed.

Lemma inc_runtime_ns_adds_modulo_2_64_witness :
  get_runtime_ns (inc_runtime_ns 100000000 Sample.fresh)
  = get_runtime_ns Sample.fresh + 100000000
  /\ get_runtime_ns Sample.fresh
     <= get_runtime_ns (inc_runtime_ns 100000000 Sample.fresh).
Proof.
  apply (proj1 (proj2 (inc_runtime_ns_adds_modulo_2_64 100000000
                         Sample.fresh))); discriminate.
Defined.

Lemma run_calls_runtime_monotone_witness :
  get_runtime_ns (run_calls Sample.two_slices Sample.fresh) = 125000000
  /\ get_runtime_ns Sample.fresh
     <= get_runtime_ns (run_calls Sample.two_slices Sample.fresh).
Proof.
  apply (run_calls_runtime_monotone Sample.two_slices Sample.fresh).
  - discriminate.
  - repeat constructor; discriminate.
  - discriminate.
Defined.

(** ** Pending finish *)

Section PendingFinishProperties.

Context {Op W : Type} `{OperatorBase Op} `{StopWatch W}.
Implicit Type t : PipelineTask Op W.

Lemma neither_pending_finish_negb t :
  neither_source_nor_sink_pending_finish t = negb (is_pending_finish t).
Proof.
  unfold is_pending_finish, neither_source_nor_sink_pending_finish.
  symmetry. apply negb_orb.
Qed.

(** C2: [is_pending_finish] is true exactly when the source operator or the
    sink operator is pending finish; hence the trigger of the transition
    from PENDING_FINISH to FINISHED, "neither source nor sink is pending
    finish", is the negation of [is_pending_finish]: it holds exactly when
    [is_pending_finish] returns false. *)
Theorem is_pending_finish_source_or_sink t :
  (is_pending_finish t = true <->
   op_is_pending_finish (_source t) = true
   \/ op_is_pending_finish (_sink t) = true)
  /\ neither_source_nor_sink_pending_finish t = negb (is_pending_finish t)
  /\ (neither_source_nor_sink_pending_finish t = true <->
      is_pending_finish t = false)
  /\ (is_pending_finish t = false <->
      op_is_pending_finish (_source t) = false
      /\ op_is_pending_finish (_sink t) = false).
Proof.
  unfold is_pending_finish, neither_source_nor_sink_pending_finish.
  destruct (op_is_pending_finish (_source t)),
           (op_is_pending_finish (_sink t)); cbn;
    intuition discriminate.
Qed.

(** The row PENDING_FINISH to FINISHED of the table fires on a task in
    PENDING_FINISH exactly when [is_pending_finish] is false. *)
Lemma release_completed_fires (obs : Fsm.Observation) t :
  get_state t = PipelineTaskState.PENDING_FINISH ->
  fire obs Fsm.Release_completed t
  = if is_pending_finish t then None
    else Some (set_state PipelineTaskState.FINISHED t).
Proof.
  intros Hs. unfold fire. cbn [trigger_holds].
  rewrite neither_pending_finish_negb, Hs.
  destruct (is_pending_finish t); reflexivity.
Qed.

End PendingFinishProperties.

(** ** The multicast source operator *)

(** C9: on the consumer side of a multicast stream [prepare], [open] and
    [sink] return OK whatever they are given (a null state or block
    included); [sink] leaves the operator and the block as they are. *)
Theorem multicast_source_prepare_open_sink_OK
    (self : MultiCastDataStreamerSourceOperator.t) (state : RuntimeStatePtr)
    (block : option Block) (source_state : SourceState.t) :
  MultiCastDataStreamerSourceOperator.prepare self state = (OK, self)
  /\ MultiCastDataStreamerSourceOperator.open self state = (OK, self)
  /\ MultiCastDataStreamerSourceOperator.status
       (MultiCastDataStreamerSourceOperator.sink self state block
          source_state) = OK
  /\ MultiCastDataStreamerSourceOperator.self_after
       (MultiCastDataStreamerSourceOperator.sink self state block
          source_state) = self
  /\ MultiCastDataStreamerSourceOperator.block_after
       (MultiCastDataStreamerSourceOperator.sink self state block
          source_state) = block.
Proof. repeat split. Qed.

(** ** Closing *)

Section CloseProperties.

Context {Op W : Type} `{OperatorContract Op} `{StopWatch W}.
Implicit Type t : PipelineTask Op W.

Lemma op_try_close_again (o o' : Op) (st : Status) :
  op_try_close o = (st, o') -> op_try_close o' = (st, o').
Proof.
  intros E. pose proof (op_try_close_idempotent o) as I.
  rewrite E in I. exact I.
Qed.

Lemma try_close_each_again (ops ops' : list Op) (sts : list Status) :
  try_close_each ops = (sts, ops') -> try_close_each ops' = (sts, ops').
Proof.
  revert ops' sts.
  induction ops as [|o ops IH]; intros ops' sts E; cbn in E.
  - injection E as <- <-. reflexivity.
  - destruct (op_try_close o) as [st o'] eqn:Eo.
    destruct (try_close_each ops) as [sts1 ops1] eqn:Er.
    injection E as <- <-. cbn.
    rewrite (op_try_close_again o o' st Eo), (IH ops1 sts1 eq_refl).
    reflexivity.
Qed.

(** C6: with operators that keep their contract, a second [try_close]
    returns the status of the first and leaves the task, its operators and
    sink included, as the first left it, in whatever state the task is and
    however the operators' statuses are combined. *)
Theorem try_close_twice_is_once (combine : list Status -> Status) t :
  try_close combine (snd (try_close combine t)) = try_close combine t.
Proof.
  unfold try_close.
  destruct (op_try_close (Operators.first (_operators t)))
    as [st_first first'] eqn:Ef.
  destruct (try_close_each (Operators.rest (_operators t)))
    as [sts_rest rest'] eqn:Er.
  destruct (op_try_close (_sink t)) as [st_sink sink'] eqn:Es.
  cbn.
  rewrite (op_try_close_again _ _ _ Ef), (try_close_each_again _ _ _ Er),
    (op_try_close_again _ _ _ Es).
  reflexivity.
Qed.

Lemma try_close_keeps_state (combine : list Status -> Status) t :
  get_state (snd (try_close combine t)) = get_state t.
Proof.
  unfold try_close.
  destruct (op_try_close (Operators.first (_operators t))).
  destruct (try_close_each (Operators.rest (_operators t))).
  destruct (op_try_close (_sink t)).
  reflexivity.
Qed.

End CloseProperties.

Lemma try_close_twice_is_once_witness :
  try_close Sample.first_error
    (snd (try_close Sample.first_error Sample.parked))
  = try_close Sample.first_error Sample.parked
  /\ fst (try_close Sample.first_error Sample.parked) = Error 7.
Proof.
  split.
  - apply (try_close_twice_is_once Sample.first_error Sample.parked).
  - reflexivity.
Defined.

(** ** Cancellation *)


Section CancelProperties.

Context {Op W : Type} `{OperatorBase Op} `{StopWatch W}.
Implicit Type t : PipelineTask Op W.

Lemma fire_cancellation (obs : Fsm.Observation) t :
  Fsm.fragment_canceled obs = true ->
  fire obs Fsm.Cancellation_observed t
  = option_map (fun s => set_state s t)
      (Fsm.next (get_state t) Fsm.Cancellation_observed).
Proof. intros C. unfold fire. cbn [trigger_holds]. rewrite C. reflexivity. Qed.

Lemma observe_cancellation_state (obs : Fsm.Observation) t :
  Fsm.fragment_canceled obs = true ->
  get_state (observe_cancellation obs t)
  = match Fsm.next (get_state t) Fsm.Cancellation_observed with
    | Some s => s
    | None => get_state t
    end.
Proof.
  intros C. unfold observe_cancellation. rewrite (fire_cancellation obs t C).
  destruct (Fsm.next (get_state t) Fsm.Cancellation_observed); reflexivity.
Qed.

(** C1: once the fragment's cancellation is observed, a task in RUNNABLE,
    in PENDING_FINISH or in one of the four blocked states
    (BLOCKED_FOR_DEPENDENCY, BLOCKED_FOR_SOURCE, BLOCKED_FOR_SINK,
    BLOCKED_FOR_RF) goes to CANCELED, whatever else was observed; and
    wherever the task is held (a queue level, a worker, the blocked task
    scheduler, the terminal set), the state its holder leaves it in is
    terminal. *)
Theorem cancellation_observed_leads_to_CANCELED (obs : Fsm.Observation) t :
  Fsm.fragment_canceled obs = true ->
  (In (get_state t)
      [PipelineTaskState.RUNNABLE; PipelineTaskState.PENDING_FINISH;
       PipelineTaskState.BLOCKED_FOR_DEPENDENCY;
       PipelineTaskState.BLOCKED_FOR_SOURCE;
       PipelineTaskState.BLOCKED_FOR_SINK;
       PipelineTaskState.BLOCKED_FOR_RF] ->
   fire obs Fsm.Cancellation_observed t
   = Some (set_state PipelineTaskState.CANCELED t)
   /\ get_state (observe_cancellation obs t) = PipelineTaskState.CANCELED)
  /\ (forall h : Fsm.Holder,
         Fsm.holds h (get_state t) = true ->
         PipelineTaskState.is_terminal
           (get_state (observe_cancellation obs t)) = true).
Proof.
  intros C. split.
  - intros L.
    rewrite (observe_cancellation_state obs t C), (fire_cancellation obs t C).
    cbn [In] in L.
    destruct L as [E|[E|[E|[E|[E|[E|[]]]]]]]; rewrite <- E; split; reflexivity.
  - intros h Hh. rewrite (observe_cancellation_state obs t C).
    destruct (get_state t); destruct h; try discriminate Hh; reflexivity.
Qed.

End CancelProperties.

Lemma cancellation_observed_leads_to_CANCELED_witness :
  Fsm.fragment_canceled Sample.canceled_observation = true
  /\ get_state Sample.parked = PipelineTaskState.BLOCKED_FOR_SOURCE
  /\ get_state
       (observe_cancellation Sample.canceled_observation Sample.parked)
     = PipelineTaskState.CANCELED.
Proof.
  split; [reflexivity|]. split; [reflexivity|].
  apply (cancellation_observed_leads_to_CANCELED
           Sample.canceled_observation Sample.parked eq_refl).
  cbn. tauto.
Defined.

(** ** Further properties of the inline functions *)

Lemma wrap64_add_l (a b : Z) :
  Machine.wrap64 (Machine.wrap64 a + b) = Machine.wrap64 (a + b).
Proof. unfold Machine.wrap64. apply Zplus_mod_idemp_l. Qed.

Lemma wrap64_add_r (a b : Z) :
  Machine.wrap64 (a + Machine.wrap64 b) = Machine.wrap64 (a + b).
Proof. unfold Machine.wrap64. apply Zplus_mod_idemp_r. Qed.

Section BookkeepingProperties.

Context {Op W : Type} `{OperatorBase Op} `{StopWatch W}.
Implicit Type t : PipelineTask Op W.

(** *** Runtime increments add up *)

Lemma inc_runtime_ns_twice (d1 d2 : Z) t :
  inc_runtime_ns d2 (inc_runtime_ns d1 t) = inc_runtime_ns (d1 + d2) t.
Proof.
  unfold inc_runtime_ns, with_runtime. cbn.
  rewrite wrap64_add_l, Z.add_assoc. reflexivity.
Qed.

(** Two runtime increments are one increment by the sum of the two, the sum
    taken as the [uint64_t] the parameter is; hence the order of the
    increments does not matter, also when the runtime wraps around. *)
Theorem inc_runtime_ns_accumulates (d1 d2 : Z) t :
  inc_runtime_ns d2 (inc_runtime_ns d1 t)
  = inc_runtime_ns (Machine.wrap64 (d1 + d2)) t
  /\ inc_runtime_ns d2 (inc_runtime_ns d1 t)
     = inc_runtime_ns d1 (inc_runtime_ns d2 t).
Proof.
  split.
  - rewrite inc_runtime_ns_twice.
    unfold inc_runtime_ns. rewrite wrap64_add_r. reflexivity.
  - rewrite !inc_runtime_ns_twice, (Z.add_comm d1 d2). reflexivity.
Qed.

(** *** Core assignments *)

Lemma with_recorded_fields_same t :
  with_previous_schedule_id (_previous_schedule_id t)
    (with_core_change_times (_core_change_times t) t) = t.
Proof. destruct t; reflexivity. Qed.

(** Assigning the same core again changes nothing, and whatever core is
    assigned, the recorded core and the counter of core changes are the only
    members that can differ afterwards. *)
Theorem set_previous_core_id_idempotent_and_framed (id : Z) t :
  set_previous_core_id id (set_previous_core_id id t)
  = set_previous_core_id id t
  /\ set_previous_core_id id t
     = with_previous_schedule_id
         (_previous_schedule_id (set_previous_core_id id t))
         (with_core_change_times
            (_core_change_times (set_previous_core_id id t)) t).
Proof.
  split.
  - apply set_previous_core_id_same. symmetry.
    apply set_previous_core_id_records.
  - destruct (set_previous_core_id_cases id t) as [E|[E|E]]; rewrite E.
    + symmetry. apply with_recorded_fields_same.
    + destruct t; reflexivity.
    + reflexivity.
Qed.

Lemma set_previous_core_id_counter (id : Z) t :
  _core_change_times (set_previous_core_id id t)
  = _core_change_times t
    + (if id =? _previous_schedule_id t then 0
       else if _previous_schedule_id t =? -1 then 0 else 1).
Proof.
  unfold set_previous_core_id, COUNTER_UPDATE.
  destruct (id =? _previous_schedule_id t); [lia|].
  destruct (_previous_schedule_id t =? -1); cbn; lia.
Qed.

Lemma assign_cores_cons (id : Z) (ids : list Z) t :
  assign_cores (id :: ids) t = assign_cores ids (set_previous_core_id id t).
Proof. reflexivity. Qed.

Lemma assign_cores_counted_after_first (ids : list Z) t :
  ~ In (-1) ids -> _previous_schedule_id t <> -1 ->
  _core_change_times (assign_cores ids t)
  = _core_change_times t + adjacent_changes (_previous_schedule_id t) ids.
Proof.
  revert t. induction ids as [|id ids IH]; intros t NI P.
  - cbn. lia.
  - rewrite assign_cores_cons, IH.
    + rewrite set_previous_core_id_records, set_previous_core_id_counter.
      rewrite (proj2 (Z.eqb_neq _ _) P). cbn [adjacent_changes]. lia.
    + intros I. apply NI. right. exact I.
    + rewrite set_previous_core_id_records. intros E. apply NI.
      left. exact E.
Qed.

Lemma assign_cores_counter_bounds (ids : list Z) t :
  _core_change_times t <= _core_change_times (assign_cores ids t)
  <= _core_change_times t + Z.of_nat (List.length ids).
Proof.
  revert t. induction ids as [|id ids IH]; intros t.
  - cbn. lia.
  - rewrite assign_cores_cons. specialize (IH (set_previous_core_id id t)).
    rewrite set_previous_core_id_counter in IH.
    cbn [List.length]. rewrite Nat2Z.inj_succ.
    destruct (id =? _previous_schedule_id t);
      [|destruct (_previous_schedule_id t =? -1)]; lia.
Qed.

(** Over a run of core assignments none of which is -1, the counter of core
    changes grows by the number of places where the core differs from the
    one before it.  For a task that ran before, the recorded core is the one
    before the first of the run; for a task that did not, the first
    assignment counts for nothing.  In any case the counter never goes down
    and grows by at most one per assignment. *)
Theorem assign_cores_counts_adjacent_changes (ids : list Z) t :
  ~ In (-1) ids ->
  (_previous_schedule_id t <> -1 ->
   _core_change_times (assign_cores ids t)
   = _core_change_times t + adjacent_changes (_previous_schedule_id t) ids)
  /\ (_previous_schedule_id t = -1 ->
      _core_change_times (assign_cores ids t)
      = _core_change_times t
        + match ids with
          | [] => 0
          | id :: ids' => adjacent_changes id ids'
          end)
  /\ _core_change_times t <= _core_change_times (assign_cores ids t)
     <= _core_change_times t + Z.of_nat (List.length ids).
Proof.
  intros NI. split; [|split].
  - apply assign_cores_counted_after_first. exact NI.
  - intros P. destruct ids as [|id ids]; [cbn; lia|].
    rewrite assign_cores_cons, assign_cores_counted_after_first.
    + rewrite set_previous_core_id_records, set_previous_core_id_counter, P.
      destruct (id =? -1); cbn; lia.
    + intros I. apply NI. right. exact I.
    + rewrite set_previous_core_id_records. intros E. apply NI.
      left. exact E.
  - apply assign_cores_counter_bounds.
Qed.

(** [get_previous_core_id] answers -1 only when neither the task nor its
    pipeline has a core recorded. *)
Theorem get_previous_core_id_unknown_iff (h : Pipeline.Heap) t :
  get_previous_core_id h t = -1 <->
  _previous_schedule_id t = -1
  /\ Pipeline._previous_schedule_id (h (_pipeline t)) = -1.
Proof.
  unfold get_previous_core_id.
  destruct (Z.eqb_spec (_previous_schedule_id t) (-1)) as [E|E]; cbn;
    split; intros A.
  - split; assumption.
  - apply A.
  - contradiction.
  - destruct A as [A _]. contradiction.
Qed.

(** *** The runnable queue, round after round *)

(** After [n] rounds through the runnable queue the schedule count is the
    initial count plus [n] modulo 2^32, so that it is back where it was
    after 4294967296 more rounds; after at least one round the
    wait-for-worker watch is stopped. *)
Theorem requeue_counts_modulo_2_32 (n : N) t :
  Machine.is_uint32 (_schedule_time t) ->
  _schedule_time (requeue n t) = (_schedule_time t + Z.of_N n) mod 2 ^ 32
  /\ _schedule_time (requeue (n + 4294967296) t)
     = _schedule_time (requeue n t)
  /\ (n <> 0%N ->
      sw_running (_wait_worker_watcher (requeue n t)) = false).
Proof.
  intros R. split; [|split].
  - apply (requeue_schedule_time n t R).
  - rewrite !(requeue_schedule_time _ t R), N2Z.inj_add.
    unfold Machine.wrap32.
    replace (_schedule_time t + (Z.of_N n + Z.of_N 4294967296))
      with (_schedule_time t + Z.of_N n + 1 * Machine.UINT32_MODULUS)
      by (change (Z.of_N 4294967296) with Machine.UINT32_MODULUS; lia).
    apply Z_mod_plus_full.
  - intros NZ. destruct (N.eq_dec n 0) as [E|_]; [contradiction|].
    rewrite <- (N.succ_pred n NZ). unfold requeue.
    rewrite N.iter_succ. apply sw_running_stop.
Qed.

(** *** The schedule watch *)


(** *** Bookkeeping and readiness *)

Lemma run_call_keeps_configuration (c : Call) t :
  _operators (run_call c t) = _operators t
  /\ _sink (run_call c t) = _sink t
  /\ _can_steal (run_call c t) = _can_steal t
  /\ _cur_state (run_call c t) = _cur_state t
  /\ _data_state (run_call c t) = _data_state t
  /\ _pipeline (run_call c t) = _pipeline t.
Proof.
  destruct c; cbn; try (repeat split; reflexivity).
  destruct (set_previous_core_id_cases id t) as [E|[E|E]]; rewrite E;
    repeat split; reflexivity.
Qed.

Lemma run_calls_keep_configuration (cs : list Call) t :
  _operators (run_calls cs t) = _operators t
  /\ _sink (run_calls cs t) = _sink t
  /\ _can_steal (run_calls cs t) = _can_steal t
  /\ _cur_state (run_calls cs t) = _cur_state t
  /\ _data_state (run_calls cs t) = _data_state t
  /\ _pipeline (run_calls cs t) = _pipeline t.
Proof.
  revert t. induction cs as [|c cs IH]; intros t;
    [repeat split; reflexivity|].
  change (run_calls (c :: cs) t) with (run_calls cs (run_call c t)).
  destruct (IH (run_call c t)) as (A1 & A2 & A3 & A4 & A5 & A6).
  destruct (run_call_keeps_configuration c t) as (B1 & B2 & B3 & B4 & B5 & B6).
  repeat split; congruence.
Qed.

(** Whatever bookkeeping calls are made on a task, in whatever number and
    order, the answers about the task's readiness stay the same: its state,
    whether it is pending finish, whether its source can read and has its
    runtime filters, whether its sink can write, whether it may be stolen,
    and its root operator. *)
Theorem bookkeeping_keeps_readiness (cs : list Call) t :
  get_state (run_calls cs t) = get_state t
  /\ is_pending_finish (run_calls cs t) = is_pending_finish t
  /\ source_can_read (run_calls cs t) = source_can_read t
  /\ runtime_filters_are_ready_or_timeout (run_calls cs t)
     = runtime_filters_are_ready_or_timeout t
  /\ sink_can_write (run_calls cs t) = sink_can_write t
  /\ can_steal (run_calls cs t) = can_steal t
  /\ get_root (run_calls cs t) = get_root t.
Proof.
  destruct (run_calls_keep_configuration cs t) as (A1 & A2 & A3 & A4 & _).
  unfold get_state, is_pending_finish, source_can_read,
    runtime_filters_are_ready_or_timeout, sink_can_write, can_steal,
    get_root, _root, _source.
  rewrite A1, A2, A3, A4. repeat split; reflexivity.
Qed.

(** *** Telling the parents *)



End BookkeepingProperties.

Lemma assign_cores_counts_adjacent_changes_witness :
  _core_change_times (assign_cores Sample.five_slices Sample.fresh) = 2.
Proof.
  apply (proj1 (proj2 (assign_cores_counts_adjacent_changes
                         Sample.five_slices Sample.fresh
                         ltac:(cbn; intuition discriminate)))).
  reflexivity.
Defined.

Lemma requeue_counts_modulo_2_32_witness :
  _schedule_time (requeue 3 Sample.fresh) = 3.
Proof.
  apply (proj1 (requeue_counts_modulo_2_32 3 Sample.fresh
                  (conj (Z.le_refl 0) eq_refl))).
Defined.

(** ** Runs of calls on the multicast source operator *)

(** Whatever calls of [prepare], [open] and [sink] are made on a multicast
    source operator, in whatever order and with whatever arguments, each of
    them returns OK and the operator is left as it was: no order of the
    three is asked for. *)
Theorem multicast_source_runs_OK
    (cs : list MultiCastDataStreamerSourceOperator.Call)
    (self : MultiCastDataStreamerSourceOperator.t) :
  MultiCastDataStreamerSourceOperator.run_calls cs self
  = (repeat OK (List.length cs), self).
Proof.
  induction cs as [|c cs IH]; [reflexivity|].
  cbn [MultiCastDataStreamerSourceOperator.run_calls List.length repeat].
  destruct c; cbn; rewrite IH; reflexivity.
Qed.

(** ** Full time slices *)

Section SliceProperties.

Context {Op W : Type} `{OperatorBase Op} `{StopWatch W}.
Implicit Type t : PipelineTask Op W.

Lemma charge_slices_runtime (n : N) t :
  Machine.is_uint64 (get_runtime_ns t) ->
  get_runtime_ns (charge_slices n t)
  = Machine.wrap64 (get_runtime_ns t + Z.of_N n * THREAD_TIME_SLICE).
Proof.
  intros R. unfold charge_slices.
  induction n as [|n IH] using N.peano_ind.
  - cbn. rewrite Z.add_0_r. symmetry. apply wrap64_small. exact R.
  - rewrite N.iter_succ, inc_runtime_ns_get, IH, wrap64_add_l, N2Z.inj_succ.
    f_equal. lia.
Qed.

(** A task whose runtime starts at 0 can be charged 184467440737 full time
    slices, more than 584 years of execution, and its runtime is their exact
    sum; the slice after that makes the runtime wrap around to less than one
    slice. *)
Theorem charge_slices_exact_below_wrap (n : N) t :
  get_runtime_ns t = 0 ->
  (Z.of_N n <= 184467440737 ->
   get_runtime_ns (charge_slices n t) = Z.of_N n * THREAD_TIME_SLICE)
  /\ get_runtime_ns (charge_slices 184467440738 t) < THREAD_TIME_SLICE.
Proof.
  intros Z0.
  assert (Machine.is_uint64 (get_runtime_ns t)) as R
    by (rewrite Z0; split; [discriminate | reflexivity]).
  split.
  - intros B. rewrite (charge_slices_runtime n t R), Z0.
    apply wrap64_small. unfold Machine.is_uint64, Machine.UINT64_MODULUS,
      THREAD_TIME_SLICE.
    change (2 ^ 64) with 18446744073709551616. lia.
  - rewrite (charge_slices_runtime _ t R), Z0. reflexivity.
Qed.

End SliceProperties.

Lemma charge_slices_exact_below_wrap_witness :
  get_runtime_ns (charge_slices 2 Sample.fresh) = 200000000.
Proof.
  apply (proj1 (charge_slices_exact_below_wrap 2 Sample.fresh eq_refl)).
  discriminate.
Defined.
